(** * crypto.me backend: the profile cache of [backend/app.py]

    A shallow embedding of the FastAPI handlers [get_profile] and
    [update_profile], of the cache helpers [get_cached_profile] and
    [update_cache], and of the profile source [fetch_profile_data], together
    with the part of the SQLAlchemy session they run against.

    - the table [cached_profiles] is a finite map from [ens_name] (its unique
      index) to a row holding [profile_data] and [last_updated]; the surrogate
      key [id] is never read by a handler and is left out;
    - a JSON document is an association list in insertion order, as a Python
      dict is;
    - a Python [str] is the string of its UTF-8 bytes;
    - a timestamp is an integer number of microseconds, the resolution of
      [datetime];
    - handlers are written in a state-and-exception monad over the committed
      table plus the session of the running request. *)

From stdpp Require Import gmap strings.
From Stdlib Require Import ZArith Lia.

Local Open Scope Z_scope.
Local Open Scope string_scope.

(** ** JSON values and dicts *)

(** Values of the [JSON] column and of request bodies.  Numbers are the
    integers the handlers themselves produce. *)
#[warnings="-register-all"]
Inductive json : Type :=
| JNull
| JBool (b : bool)
| JInt (n : Z)
| JStr (s : string)
| JList (l : list json)
| JDict (d : list (string * json)).

Definition dict : Type := list (string * json).

(** [d.get(k)] *)
Fixpoint dict_get (k : string) (d : dict) : option json :=
  match d with
  | [] => None
  | (k', v) :: d' => if String.eqb k k' then Some v else dict_get k d'
  end.

(** [d[k] = v]: an existing key keeps its position, a new key is appended. *)
Fixpoint dict_set (k : string) (v : json) (d : dict) : dict :=
  match d with
  | [] => [(k, v)]
  | (k', v') :: d' =>
      if String.eqb k k' then (k, v) :: d' else (k', v') :: dict_set k v d'
  end.

(** ** Time *)

(** [timedelta(hours=h)] in microseconds. *)
Definition timedelta_hours (h : Z) : Z := h * 3600000000.

(** ** The store *)

(** A row of [cached_profiles] (class [CachedProfile]), keyed by [ens_name]. *)
Record CachedProfile : Type := {
  profile_data : dict;
  last_updated : Z
}.

(** What persists between requests: the committed table, the number of
    [datetime.utcnow()] readings taken so far and the number of [db.commit()]
    calls issued so far.  With [autoflush=False] every INSERT and UPDATE is
    sent by a commit, so a request that issues no commit writes nothing. *)
Record World : Type := {
  db : gmap string CachedProfile;
  tick : nat;
  commits : nat
}.

(** What the code does not decide: the readings of the clock, which commits
    the database accepts, and the two library functions used by the profile
    source: [str.lower] and the hex digest of MD5 over the UTF-8 encoding. *)
Record Env : Type := {
  clock : nat -> Z;
  commit_ok : nat -> bool;
  str_lower : string -> string;
  md5_hexdigest : string -> string
}.

(** ** The session of one request

    A request opens its own session ([get_db]) and only ever touches the
    object of the requested name, so the session tracks at most one object.

    - [Pending]: constructed and [db.add]-ed, not yet inserted; [lu] is [None]
      while [last_updated] is unset (the column default fills it on INSERT).
    - [Persistent]: backed by a row.  An attribute is [None] while unloaded
      (never loaded, or expired by a commit or rollback) and is read back from
      the row on the next access.  [mod_pd] and [mod_lu] record that the
      attribute was assigned since the last flush: only those columns go into
      the UPDATE.  [profile_data] is a plain [Column(JSON)], with no mutation
      tracking: an item assignment into the loaded dict changes the in-memory
      value and sets no flag. *)
Inductive Obj : Type :=
| Pending (ens : string) (pd : dict) (lu : option Z)
| Persistent (ens : string) (pd : option dict) (lu : option Z)
             (mod_pd mod_lu : bool).

Record St : Type := {
  world : World;
  session : option Obj
}.

Inductive exn : Type :=
| SQLAlchemyError
| AttributeError
| TypeError.

Inductive result (A : Type) : Type :=
| Ok (a : A)
| Raise (e : exn).
Arguments Ok {A} a.
Arguments Raise {A} e.

Definition M (A : Type) : Type := St -> result A * St.

#[export] Instance M_ret : MRet M := fun A a s => (Ok a, s).

#[export] Instance M_bind : MBind M := fun A B f m s =>
  match m s with
  | (Ok a, s') => f a s'
  | (Raise e, s') => (Raise e, s')
  end.

(** [try: m except Exception as e: h e] *)
Definition try_except {A} (m : M A) (h : exn -> M A) : M A := fun s =>
  match m s with
  | (Ok a, s') => (Ok a, s')
  | (Raise e, s') => h e s'
  end.

Definition set_world (w : World) (s : St) : St :=
  {| world := w; session := session s |}.

Definition set_session (o : option Obj) (s : St) : St :=
  {| world := world s; session := o |}.

Definition set_db (m : gmap string CachedProfile) (w : World) : World :=
  {| db := m; tick := tick w; commits := commits w |}.

Definition next_tick (w : World) : World :=
  {| db := db w; tick := S (tick w); commits := commits w |}.

Definition next_commit (w : World) : World :=
  {| db := db w; tick := tick w; commits := S (commits w) |}.

Definition World_after (m : gmap string CachedProfile) (t c : nat) : World :=
  {| db := m; tick := t; commits := c |}.

(** ** Text

    A Python [str] is modelled by its UTF-8 encoding, the bytes that
    [email.encode()] hands to MD5. *)

(** [str.lower] on ASCII text: the capitals A to Z become small. *)
Definition ascii_lower_char (c : Ascii.ascii) : Ascii.ascii :=
  let n := Ascii.nat_of_ascii c in
  if ((65 <=? n) && (n <=? 90))%nat then Ascii.ascii_of_nat (n + 32) else c.

Fixpoint ascii_lower (s : string) : string :=
  match s with
  | EmptyString => EmptyString
  | String c s' => String (ascii_lower_char c) (ascii_lower s')
  end.


















(** ** MD5 (RFC 1321), on 32-bit words as integers *)

















(** ** Concrete environments and worlds

    Used to run the handlers on examples. *)

(** The clock starts at [t] and advances one microsecond per reading; every
    commit is accepted, or every commit is refused.  [str.lower] is the one of
    ASCII text and the digest is a stand-in: no statement about these
    environments depends on which function it is. *)
Definition env_at (t : Z) (accept : bool) : Env :=
  {| clock := fun n => t + Z.of_nat n;
     commit_ok := fun _ => accept;
     str_lower := ascii_lower;
     md5_hexdigest := fun s => s |}.

(** The clock of [env_at]; commit number [n] is accepted when [accept n]. *)
Definition env_with (t : Z) (accept : nat -> bool) : Env :=
  {| clock := fun n => t + Z.of_nat n;
     commit_ok := accept;
     str_lower := ascii_lower;
     md5_hexdigest := fun s => s |}.


Definition empty_world : World := {| db := ∅; tick := 0; commits := 0 |}.

Definition alice_doc : dict :=
  [("ens_name", JStr "alice.eth");
   ("avatar", JStr "https://example.org/alice.png");
   ("farcaster_stats",
    JDict [("followers", JInt 7); ("following", JInt 3); ("posts", JInt 1)])].

(** One record, written at time 0. *)
Definition alice_world : World :=
  {| db := {["alice.eth" := {| profile_data := alice_doc; last_updated := 0 |}]};
     tick := 0; commits := 0 |}.

(** ** Session operations *)

Section Backend.

Variable env : Env.

(** [datetime.utcnow()] *)
Definition utcnow : M Z := fun s =>
  (Ok (clock env (tick (world s))), set_world (next_tick (world s)) s).

(** [db.query(CachedProfile).filter(CachedProfile.ens_name == ens_name).first()].
    The result is a reference to the session's object or [None]; it is
    represented by its truth value.  A row found for an object the session
    already holds fills in that object's unloaded attributes only. *)
Definition query_first (ens_name : string) : M bool := fun s =>
  match db (world s) !! ens_name with
  | None => (Ok false, s)
  | Some row =>
      let o :=
        match session s with
        | Some (Persistent e pd lu mp ml) =>
            if String.eqb e ens_name
            then Persistent e
                   (Some (default (profile_data row) pd))
                   (Some (default (last_updated row) lu)) mp ml
            else Persistent ens_name (Some (profile_data row))
                   (Some (last_updated row)) false false
        | _ => Persistent ens_name (Some (profile_data row))
                 (Some (last_updated row)) false false
        end in
      (Ok true, set_session (Some o) s)
  end.

(** Reading an unloaded attribute of a persistent object loads every
    unloaded attribute from its row. *)
Definition refresh : M unit := fun s =>
  match session s with
  | None => (Raise AttributeError, s)
  | Some (Pending _ _ _) => (Ok tt, s)
  | Some (Persistent e pd lu mp ml) =>
      match pd, lu with
      | Some _, Some _ => (Ok tt, s)
      | _, _ =>
          match db (world s) !! e with
          | None => (Raise SQLAlchemyError, s)
          | Some row =>
              (Ok tt,
               set_session
                 (Some (Persistent e
                          (Some (default (profile_data row) pd))
                          (Some (default (last_updated row) lu)) mp ml)) s)
          end
      end
  end.

(** [cached_profile.profile_data] *)
Definition get_profile_data : M dict := fun s =>
  match session s with
  | None => (Raise AttributeError, s)
  | Some (Pending _ pd _) => (Ok pd, s)
  | Some (Persistent _ (Some pd) _ _ _) => (Ok pd, s)
  | Some (Persistent _ None _ _ _) =>
      match refresh s with
      | (Ok _, s') =>
          match session s' with
          | Some (Persistent _ (Some pd) _ _ _) => (Ok pd, s')
          | _ => (Raise SQLAlchemyError, s')
          end
      | (Raise e, s') => (Raise e, s')
      end
  end.

(** [cached_profile.last_updated], as far as the comparison of
    [get_profile] needs it: a datetime. *)
Definition get_last_updated : M Z := fun s =>
  match session s with
  | None => (Raise AttributeError, s)
  | Some (Pending _ _ (Some t)) => (Ok t, s)
  | Some (Pending _ _ None) => (Raise TypeError, s)
  | Some (Persistent _ _ (Some t) _ _) => (Ok t, s)
  | Some (Persistent _ _ None _ _) =>
      match refresh s with
      | (Ok _, s') =>
          match session s' with
          | Some (Persistent _ _ (Some t) _ _) => (Ok t, s')
          | _ => (Raise SQLAlchemyError, s')
          end
      | (Raise e, s') => (Raise e, s')
      end
  end.

(** [cached_profile.profile_data = v]: an attribute assignment, tracked. *)
Definition set_profile_data (v : dict) : M unit := fun s =>
  match session s with
  | None => (Raise AttributeError, s)
  | Some (Pending e _ lu) => (Ok tt, set_session (Some (Pending e v lu)) s)
  | Some (Persistent e _ lu _ ml) =>
      (Ok tt, set_session (Some (Persistent e (Some v) lu true ml)) s)
  end.

(** [cached_profile.last_updated = t]: an attribute assignment, tracked. *)
Definition set_last_updated (t : Z) : M unit := fun s =>
  match session s with
  | None => (Raise AttributeError, s)
  | Some (Pending e pd _) => (Ok tt, set_session (Some (Pending e pd (Some t))) s)
  | Some (Persistent e pd _ mp _) =>
      (Ok tt, set_session (Some (Persistent e pd (Some t) mp true)) s)
  end.

(** The object keeps holding the dict it handed out, so a change made to that
    dict in place is a change of the in-memory attribute value; no assignment
    to the attribute happens and no modification is recorded. *)
Definition mutated_in_place (d : dict) : M unit := fun s =>
  match session s with
  | None => (Raise AttributeError, s)
  | Some (Pending e _ lu) => (Ok tt, set_session (Some (Pending e d lu)) s)
  | Some (Persistent e _ lu mp ml) =>
      (Ok tt, set_session (Some (Persistent e (Some d) lu mp ml)) s)
  end.

(** [cached_profile.profile_data[k] = v]: the attribute is read and the dict
    it yields is changed in place. *)
Definition setitem_profile_data (k : string) (v : json) : M unit :=
  d ← get_profile_data;
  mutated_in_place (dict_set k v d).

(** [db.add(CachedProfile(ens_name=ens_name, profile_data=profile_data))] *)
Definition add_new (ens_name : string) (pd : dict) : M unit := fun s =>
  (Ok tt, set_session (Some (Pending ens_name pd None)) s).

(** The flush of a commit the database accepts: INSERT a pending object
    ([last_updated] defaulting to [datetime.utcnow()]), UPDATE the assigned
    columns of a modified one. *)
Definition flush (o : Obj) (w : World) : result unit * World :=
  match o with
  | Pending e pd (Some t) =>
      (Ok tt, set_db (<[e := {| profile_data := pd; last_updated := t |}]> (db w)) w)
  | Pending e pd None =>
      (Ok tt,
       next_tick
         (set_db (<[e := {| profile_data := pd;
                            last_updated := clock env (tick w) |}]> (db w)) w))
  | Persistent e pd lu mp ml =>
      if mp || ml then
        match db w !! e with
        | None => (Raise SQLAlchemyError, w)
        | Some row =>
            (Ok tt,
             set_db
               (<[e := {| profile_data :=
                            if mp then default (profile_data row) pd
                            else profile_data row;
                          last_updated :=
                            if ml then default (last_updated row) lu
                            else last_updated row |}]> (db w)) w)
        end
      else (Ok tt, w)
  end.

(** After a commit ([expire_on_commit] is left at its default) and after a
    rollback every attribute is unloaded. *)
Definition expired (o : Obj) : Obj :=
  match o with
  | Pending e _ _ => Persistent e None None false false
  | Persistent e _ _ _ _ => Persistent e None None false false
  end.

(** [db.commit()].  The flush builds its statements before the database
    decides: a pending object whose [last_updated] is unset has the column
    default [datetime.utcnow] evaluated for its INSERT whether or not the
    commit is then accepted.  A refused commit raises and leaves the table as
    it was. *)
Definition commit : M unit := fun s =>
  let w := next_commit (world s) in
  match session s with
  | None =>
      if commit_ok env (commits (world s)) then (Ok tt, set_world w s)
      else (Raise SQLAlchemyError, set_world w s)
  | Some o =>
      match flush o w with
      | (Ok _, w') =>
          if commit_ok env (commits (world s))
          then (Ok tt, {| world := w'; session := Some (expired o) |})
          else (Raise SQLAlchemyError, set_world (set_db (db w) w') s)
      | (Raise e, w') => (Raise e, set_world w' s)
      end
  end.

(** [db.rollback()]: a pending object leaves the session, a persistent one
    loses its unflushed changes. *)
Definition rollback : M unit := fun s =>
  match session s with
  | None => (Ok tt, s)
  | Some (Pending _ _ _) => (Ok tt, set_session None s)
  | Some o => (Ok tt, set_session (Some (expired o)) s)
  end.

(** ** Cache functions *)

Definition get_cached_profile (ens_name : string) : M bool :=
  query_first ens_name.

(** The [print] calls only log and are left out. *)
Definition update_cache (ens_name : string) (profile_data : dict) : M unit :=
  try_except
    (cached_profile ← get_cached_profile ens_name;
     (if cached_profile : bool then
        set_profile_data profile_data;;
        now ← utcnow;
        set_last_updated now
      else
        add_new ens_name profile_data);;
     commit)
    (fun _ => rollback).

(** ** The profile source *)

Definition fetch_farcaster_stats (ens_name : string) : dict :=
  [("followers", JInt 1000); ("following", JInt 500); ("posts", JInt 250)].

Definition fetch_profile_data (ens_name : string) : dict :=
  let email := str_lower env ens_name ++ "@example.com" in
  let gravatar_url :=
    "https://www.gravatar.com/avatar/" ++ md5_hexdigest env email
      ++ "?d=identicon&s=200" in
  [("ens_name", JStr ens_name);
   ("avatar", JStr gravatar_url);
   ("farcaster_stats", JDict (fetch_farcaster_stats ens_name))].

(** ** Handlers *)

Definition get_profile (ens_name : string) : M dict :=
  cached_profile ← get_cached_profile ens_name;
  fresh ← (if cached_profile : bool then
             last ← get_last_updated;
             now ← utcnow;
             mret (now - timedelta_hours 1 <? last)%Z
           else mret false);
  if fresh : bool then get_profile_data
  else
    let profile_data := fetch_profile_data ens_name in
    update_cache ens_name profile_data;;
    mret profile_data.

Definition allowed_fields : list string := ["avatar"].

(** [for field in fields: if field in profile_update:
      cached_profile.profile_data[field] = profile_update[field]] *)
Fixpoint copy_fields (fields : list string) (profile_update : dict) : M unit :=
  match fields with
  | [] => mret tt
  | field :: rest =>
      match dict_get field profile_update with
      | Some v => setitem_profile_data field v
      | None => mret tt
      end;;
      copy_fields rest profile_update
  end.

Definition new_profile_data (ens_name : string) : dict :=
  [("ens_name", JStr ens_name);
   ("avatar",
    JStr ("https://avatars.dicebear.com/api/identicon/" ++ ens_name ++ ".svg"));
   ("farcaster_stats",
    JDict [("followers", JInt 0); ("following", JInt 0); ("posts", JInt 0)])].

(** [{"message": ..., "profile": pd}] *)
Definition updated_message (pd : dict) : dict :=
  [("message", JStr "Profile updated successfully"); ("profile", JDict pd)].

Definition update_profile (ens_name : string) (profile_update : dict) : M dict :=
  cached_profile ← get_cached_profile ens_name;
  (if cached_profile : bool then mret tt
   else
     add_new ens_name (new_profile_data ens_name);;
     commit);;
  copy_fields allowed_fields profile_update;;
  now ← utcnow;
  set_last_updated now;;
  commit;;
  pd ← get_profile_data;
  mret (updated_message pd).

(** [Depends(get_db)]: the handler runs in a session of its own, closed when
    the request ends; what it did not commit is lost with it. *)
Definition with_db {A} (handler : M A) (w : World) : result A * World :=
  let (r, s) := handler {| world := w; session := None |} in (r, world s).

Inductive request : Type :=
| GET (ens_name : string)
| PUT (ens_name : string) (body : dict).

Definition serve (r : request) (w : World) : result dict * World :=
  match r with
  | GET ens_name => with_db (get_profile ens_name) w
  | PUT ens_name body => with_db (update_profile ens_name body) w
  end.

(** The world after a sequence of requests, served one after the other. *)
Definition serve_all (rs : list request) (w : World) : World :=
  fold_left (fun w r => snd (serve r w)) rs w.


(** ** Properties of worlds *)

Definition monotone_clock : Prop :=
  forall m n : nat, (m <= n)%nat -> clock env m <= clock env n.

(** No stored timestamp is ahead of the clock. *)
Definition stamps_in_past (w : World) : Prop :=
  forall k row, db w !! k = Some row -> last_updated row <= clock env (tick w).

(** The document [PUT] starts from: the stored one, or the default one. *)
Definition prior_document (ens_name : string) (w : World) : dict :=
  match db w !! ens_name with
  | Some row => profile_data row
  | None => new_profile_data ens_name
  end.

(** The name a request is about. *)
Definition request_name (r : request) : string :=
  match r with
  | GET ens_name => ens_name
  | PUT ens_name _ => ens_name
  end.

(** Every stored document is one the code builds for the name it is stored
    under: the one of the profile source or the default one of [PUT]. *)
Definition documents_from_code (w : World) : Prop :=
  forall k row, db w !! k = Some row ->
    profile_data row = fetch_profile_data k \/
    profile_data row = new_profile_data k.

(** Every stored document names, in [ens_name], the key it is stored under. *)
Definition documents_name_their_key (w : World) : Prop :=
  forall k row, db w !! k = Some row ->
    dict_get "ens_name" (profile_data row) = Some (JStr k).

(** [get_cached_profile(db, ens_name).profile_data] *)
Definition cached_document (ens_name : string) : M dict :=
  get_cached_profile ens_name;;
  get_profile_data.


(** ** What one request does

    The handlers are straight-line code: each lemma below runs one of them
    from a world in which the requested name is, or is not, in the table. *)

Ltac run :=
  cbv beta iota zeta delta
    [serve with_db get_profile update_profile update_cache get_cached_profile
     copy_fields allowed_fields setitem_profile_data mutated_in_place
     query_first refresh get_profile_data get_last_updated set_profile_data
     set_last_updated add_new flush expired commit rollback utcnow try_except
     mbind mret M_bind M_ret set_world set_session set_db next_tick
     next_commit world session db tick commits default orb];
  cbn [profile_data last_updated].

Lemma serve_GET_miss ens_name w :
  db w !! ens_name = None ->
  serve (GET ens_name) w =
    (Ok (fetch_profile_data ens_name),
     if commit_ok env (commits w)
     then World_after
            (<[ens_name := {| profile_data := fetch_profile_data ens_name;
                              last_updated := clock env (tick w) |}]> (db w))
            (S (tick w)) (S (commits w))
     else World_after (db w) (S (tick w)) (S (commits w))).
Proof.
  intros Hdb. destruct w as [m t c]. simpl in *.
  run. rewrite Hdb. run. rewrite Hdb. run.
  destruct (commit_ok env c); reflexivity.
Qed.

Lemma serve_GET_fresh ens_name w row :
  db w !! ens_name = Some row ->
  clock env (tick w) - timedelta_hours 1 < last_updated row ->
  serve (GET ens_name) w =
    (Ok (profile_data row), World_after (db w) (S (tick w)) (commits w)).
Proof.
  intros Hdb Hlt. destruct w as [m t c]. simpl in *.
  apply Z.ltb_lt in Hlt.
  run. rewrite Hdb. run. rewrite Hlt. reflexivity.
Qed.

Lemma serve_GET_stale ens_name w row :
  db w !! ens_name = Some row ->
  last_updated row <= clock env (tick w) - timedelta_hours 1 ->
  serve (GET ens_name) w =
    (Ok (fetch_profile_data ens_name),
     if commit_ok env (commits w)
     then World_after
            (<[ens_name := {| profile_data := fetch_profile_data ens_name;
                              last_updated := clock env (S (tick w)) |}]> (db w))
            (S (S (tick w))) (S (commits w))
     else World_after (db w) (S (S (tick w))) (S (commits w))).
Proof.
  intros Hdb Hle. destruct w as [m t c]. simpl in *.
  apply Z.ltb_ge in Hle.
  run. rewrite Hdb. run. rewrite Hle. rewrite Hdb. run.
  rewrite String.eqb_refl. run. rewrite Hdb. run.
  destruct (commit_ok env c); reflexivity.
Qed.

Lemma serve_PUT_hit ens_name body w row :
  db w !! ens_name = Some row ->
  serve (PUT ens_name body) w =
    if commit_ok env (commits w)
    then (Ok (updated_message (profile_data row)),
          World_after
            (<[ens_name := {| profile_data := profile_data row;
                              last_updated := clock env (tick w) |}]> (db w))
            (S (tick w)) (S (commits w)))
    else (Raise SQLAlchemyError,
          World_after (db w) (S (tick w)) (S (commits w))).
Proof.
  intros Hdb. destruct w as [m t c]. simpl in *.
  run. rewrite Hdb. run.
  destruct (dict_get "avatar" body); run; rewrite Hdb; run;
    (destruct (commit_ok env c); [run; rewrite lookup_insert_eq|]; reflexivity).
Qed.

Lemma serve_PUT_miss ens_name body w :
  db w !! ens_name = None ->
  serve (PUT ens_name body) w =
    if commit_ok env (commits w)
    then
      let inserted :=
        <[ens_name := {| profile_data := new_profile_data ens_name;
                         last_updated := clock env (tick w) |}]> (db w) in
      if commit_ok env (S (commits w))
      then (Ok (updated_message (new_profile_data ens_name)),
            World_after
              (<[ens_name := {| profile_data := new_profile_data ens_name;
                                last_updated := clock env (S (tick w)) |}]> inserted)
              (S (S (tick w))) (S (S (commits w))))
      else (Raise SQLAlchemyError,
            World_after inserted (S (S (tick w))) (S (S (commits w))))
    else (Raise SQLAlchemyError,
          World_after (db w) (S (tick w)) (S (commits w))).
Proof.
  intros Hdb. destruct w as [m t c]. simpl in *.
  run. rewrite Hdb. run.
  destruct (commit_ok env c); [|reflexivity].
  destruct (dict_get "avatar" body); run; rewrite ?lookup_insert_eq; run;
    (destruct (commit_ok env (S c)); [run; rewrite ?lookup_insert_eq|]; reflexivity).
Qed.

(** ** Dicts *)

Lemma dict_get_set_eq k v d : dict_get k (dict_set k v d) = Some v.
Proof.
  induction d as [|[k' v'] d IH]; simpl.
  - by rewrite String.eqb_refl.
  - destruct (String.eqb k k') eqn:E; simpl; rewrite ?String.eqb_refl, ?E; done.
Qed.

Lemma dict_get_set_ne k k' v d :
  k <> k' -> dict_get k (dict_set k' v d) = dict_get k d.
Proof.
  intros Hne. apply String.eqb_neq in Hne.
  induction d as [|[k0 v0] d IH]; simpl.
  - by rewrite Hne.
  - destruct (String.eqb k' k0) eqn:E; simpl.
    + apply String.eqb_eq in E. subst k0. by rewrite Hne.
    + by rewrite IH.
Qed.

(** The loop of [update_profile] over [allowed_fields], run on a loaded
    object: the in-memory document takes the body's [avatar], the recorded
    modifications and the table stay as they are. *)
Lemma copy_fields_loaded body e d lu mp ml w :
  copy_fields allowed_fields body
    {| world := w; session := Some (Persistent e (Some d) lu mp ml) |} =
  (Ok tt,
   {| world := w;
      session :=
        Some (Persistent e
                (Some (match dict_get "avatar" body with
                       | Some v => dict_set "avatar" v d
                       | None => d
                       end)) lu mp ml) |}).
Proof. run. destruct (dict_get "avatar" body); reflexivity. Qed.

Ltac serve_cases r w :=
  let ens := fresh "ens" in
  let body := fresh "body" in
  let row := fresh "row" in
  let Hdb := fresh "Hdb" in
  let Hage := fresh "Hage" in
  destruct r as [ens|ens body];
  [ destruct (db w !! ens) as [row|] eqn:Hdb;
    [ destruct (Z.lt_ge_cases (clock env (tick w) - timedelta_hours 1)
                  (last_updated row)) as [Hage|Hage];
      [ rewrite (serve_GET_fresh ens w row Hdb Hage)
      | rewrite (serve_GET_stale ens w row Hdb Hage) ]
    | rewrite (serve_GET_miss ens w Hdb) ]
  | destruct (db w !! ens) as [row|] eqn:Hdb;
    [ rewrite (serve_PUT_hit ens body w row Hdb)
    | rewrite (serve_PUT_miss ens body w Hdb) ] ].

Ltac commit_cases :=
  cbn zeta;
  repeat match goal with
         | |- context [commit_ok env ?c] => destruct (commit_ok env c)
         end;
  cbn [fst snd db tick commits World_after].

Ltac insert_cases :=
  repeat match goal with
         | |- context [<[?a := _]> _ !! ?b] =>
             destruct (decide (a = b)) as [->|];
             [ rewrite lookup_insert_eq | rewrite lookup_insert_ne by done ]
         end.

Lemma serve_tick_le r w : (tick w <= tick (snd (serve r w)))%nat.
Proof. serve_cases r w; commit_cases; lia. Qed.

(** A request removes no record. *)
Lemma serve_keeps_records r w k row :
  db w !! k = Some row ->
  exists row', db (snd (serve r w)) !! k = Some row'.
Proof.
  intros Hk. serve_cases r w; commit_cases; insert_cases; eauto.
Qed.

(** A timestamp found after a request was there before it, under the same
    name, or is a reading of the clock taken during the request. *)
Lemma serve_stamps r w k row' :
  db (snd (serve r w)) !! k = Some row' ->
  (exists row, db w !! k = Some row /\ last_updated row' = last_updated row) \/
  (exists n, (tick w <= n < tick (snd (serve r w)))%nat /\
             last_updated row' = clock env n).
Proof.
  serve_cases r w; commit_cases; insert_cases; intros Hk;
    try (left; exists row'; by split);
    injection Hk as <-; cbn [last_updated]; right;
    first [ exists (S (tick w)); split; [lia | done]
          | exists (tick w); split; [lia | done] ].
Qed.

(** One request never moves a stored timestamp back, and keeps every
    timestamp behind the clock. *)
Lemma serve_last_updated_mono r w :
  monotone_clock -> stamps_in_past w ->
  stamps_in_past (snd (serve r w)) /\
  forall k row, db w !! k = Some row ->
    exists row', db (snd (serve r w)) !! k = Some row' /\
                 last_updated row <= last_updated row'.
Proof.
  intros Hmono Hpast.
  pose proof (serve_tick_le r w) as Htick.
  split.
  - intros k row' Hk'.
    destruct (serve_stamps r w k row' Hk') as [(row & Hk & ->) | (n & Hn & ->)].
    + pose proof (Hpast k row Hk). pose proof (Hmono _ _ Htick). lia.
    + apply Hmono. lia.
  - intros k row Hk.
    destruct (serve_keeps_records r w k row Hk) as (row' & Hk').
    exists row'. split; [done|].
    destruct (serve_stamps r w k row' Hk') as [(row0 & Hk0 & ->) | (n & Hn & ->)].
    + rewrite Hk in Hk0. injection Hk0 as <-. lia.
    + pose proof (Hpast k row Hk). pose proof (Hmono (tick w) n). lia.
Qed.

(** ** Reading through the cache

    In the statements below "now" is the reading [clock env (tick w)] that a
    request arriving in world [w] takes first. *)

(** C1.  A record younger than one hour is served from the cache: [GET]
    answers its stored [profile_data] as it is, the table is unchanged and no
    commit is issued.  A record exactly one hour old is not served: the
    document is synthesized again, a commit is issued and, when the database
    accepts it, the row is replaced. *)
Theorem get_profile_fresh_is_strict ens_name w row :
  db w !! ens_name = Some row ->
  (clock env (tick w) - last_updated row < timedelta_hours 1 ->
   fst (serve (GET ens_name) w) = Ok (profile_data row) /\
   db (snd (serve (GET ens_name) w)) = db w /\
   commits (snd (serve (GET ens_name) w)) = commits w) /\
  (clock env (tick w) - last_updated row = timedelta_hours 1 ->
   fst (serve (GET ens_name) w) = Ok (fetch_profile_data ens_name) /\
   commits (snd (serve (GET ens_name) w)) = S (commits w) /\
   (commit_ok env (commits w) = true ->
    db (snd (serve (GET ens_name) w)) !! ens_name =
      Some {| profile_data := fetch_profile_data ens_name;
              last_updated := clock env (S (tick w)) |})).
Proof.
  intros Hdb. split; intros Hage.
  - rewrite (serve_GET_fresh ens_name w row Hdb) by lia. done.
  - rewrite (serve_GET_stale ens_name w row Hdb) by lia.
    destruct (commit_ok env (commits w)); simpl; repeat split; try done.
    intros _. apply lookup_insert_eq.
Qed.

(** C2.  With no record, or a record at least one hour old, [GET] answers the
    document of the profile source and never raises; when the database
    accepts the commit the table holds that document under the name, stamped
    with a reading of the clock taken during the request, and nothing else in
    the table changes. *)
Theorem get_profile_refetches ens_name w :
  db w !! ens_name = None \/
  (exists row, db w !! ens_name = Some row /\
               timedelta_hours 1 <= clock env (tick w) - last_updated row) ->
  fst (serve (GET ens_name) w) = Ok (fetch_profile_data ens_name) /\
  (commit_ok env (commits w) = true ->
   exists n, (tick w <= n < tick (snd (serve (GET ens_name) w)))%nat /\
     db (snd (serve (GET ens_name) w)) =
       <[ens_name := {| profile_data := fetch_profile_data ens_name;
                        last_updated := clock env n |}]> (db w)).
Proof.
  intros [Hdb | (row & Hdb & Hage)].
  - rewrite (serve_GET_miss ens_name w Hdb). split; [done|].
    intros ->. exists (tick w). simpl. split; [lia | done].
  - rewrite (serve_GET_stale ens_name w row Hdb) by lia. split; [done|].
    intros ->. exists (S (tick w)). simpl. split; [lia | done].
Qed.

(** C5.  Two [GET]s of a name, the second arriving while the record left by
    the first is younger than one hour, answer the same document, and the
    second one leaves the table as it is and issues no commit. *)
Theorem get_profile_twice_within_ttl ens_name w row1 :
  monotone_clock ->
  db (snd (serve (GET ens_name) w)) !! ens_name = Some row1 ->
  clock env (tick (snd (serve (GET ens_name) w))) - last_updated row1
    < timedelta_hours 1 ->
  let w1 := snd (serve (GET ens_name) w) in
  fst (serve (GET ens_name) w1) = fst (serve (GET ens_name) w) /\
  db (snd (serve (GET ens_name) w1)) = db w1 /\
  commits (snd (serve (GET ens_name) w1)) = commits w1.
Proof.
  intros Hmono Hrow1 Hage1 w1.
  assert (Hsecond : serve (GET ens_name) w1 =
            (Ok (profile_data row1), World_after (db w1) (S (tick w1)) (commits w1)))
    by (apply serve_GET_fresh; [done | subst w1; lia]).
  rewrite Hsecond. cbn [fst snd]. split; [|done].
  subst w1. clear Hsecond. revert Hrow1 Hage1.
  destruct (db w !! ens_name) as [row|] eqn:Hdb.
  - destruct (Z.lt_ge_cases (clock env (tick w) - timedelta_hours 1)
                (last_updated row)) as [Hage|Hage].
    + rewrite (serve_GET_fresh ens_name w row Hdb Hage). simpl.
      rewrite Hdb. by intros [= ->].
    + rewrite (serve_GET_stale ens_name w row Hdb Hage).
      destruct (commit_ok env (commits w)); simpl.
      * rewrite lookup_insert_eq. by intros [= <-].
      * rewrite Hdb. intros [= <-] Hage1.
        pose proof (Hmono (tick w) (S (S (tick w)))). lia.
  - rewrite (serve_GET_miss ens_name w Hdb).
    destruct (commit_ok env (commits w)); simpl.
    + rewrite lookup_insert_eq. by intros [= <-].
    + rewrite Hdb. intros [=].
Qed.

(** C6.  On an empty table, and with the commit accepted, a first [GET]
    leaves exactly one record, the one of the requested name, and answers a
    document whose [ens_name] is that name. *)
Theorem get_profile_first_call_creates_one_record ens_name w :
  db w = ∅ ->
  commit_ok env (commits w) = true ->
  (exists row, db (snd (serve (GET ens_name) w)) = {[ens_name := row]}) /\
  size (db (snd (serve (GET ens_name) w))) = 1%nat /\
  exists doc, fst (serve (GET ens_name) w) = Ok doc /\
              dict_get "ens_name" doc = Some (JStr ens_name).
Proof.
  intros Hempty Hok.
  assert (Hdb : db w !! ens_name = None) by (rewrite Hempty; apply lookup_empty).
  rewrite (serve_GET_miss ens_name w Hdb), Hok, Hempty. simpl.
  rewrite insert_empty. split; [eauto|]. split; [apply map_size_singleton|].
  eexists. split; [reflexivity|]. reflexivity.
Qed.

(** ** Partial updates *)

(** [PUT] on a stored name: whatever the body, the stored document stays. *)
Lemma update_profile_keeps_stored_document ens_name body w row row' :
  db w !! ens_name = Some row ->
  db (snd (serve (PUT ens_name body) w)) !! ens_name = Some row' ->
  profile_data row' = profile_data row.
Proof.
  intros Hdb. rewrite (serve_PUT_hit ens_name body w row Hdb).
  destruct (commit_ok env (commits w)); simpl.
  - rewrite lookup_insert_eq. by intros [= <-].
  - rewrite Hdb. by intros [= <-].
Qed.

Lemma update_profile_stored_document ens_name body w row' :
  db (snd (serve (PUT ens_name body) w)) !! ens_name = Some row' ->
  profile_data row' = prior_document ens_name w.
Proof.
  unfold prior_document.
  destruct (db w !! ens_name) as [row|] eqn:Hdb.
  - apply update_profile_keeps_stored_document. done.
  - rewrite (serve_PUT_miss ens_name body w Hdb). cbn zeta.
    destruct (commit_ok env (commits w)); simpl.
    + destruct (commit_ok env (S (commits w))); simpl;
        rewrite lookup_insert_eq; by intros [= <-].
    + rewrite Hdb. intros [=].
Qed.

(** C3.  [PUT] copies from the body what [allowed_fields] lists, [avatar],
    and nothing else:
    - the loop assigns the body's [avatar], when there is one, into the
      loaded document and leaves every other key of it as it was;
    - two bodies with the same [avatar] entry give the same answer and the
      same table, so every other key of the body is ignored;
    - every key other than [avatar] of the stored document, [farcaster_stats]
      among them, is what it was before the request (in the default document
      when the name was unknown);
    - no body makes the request fail: with the commits accepted it answers. *)
Theorem update_profile_allow_list ens_name body w :
  (forall e d lu mp ml w0, exists d',
     copy_fields allowed_fields body
       {| world := w0; session := Some (Persistent e (Some d) lu mp ml) |} =
     (Ok tt, {| world := w0; session := Some (Persistent e (Some d') lu mp ml) |}) /\
     dict_get "avatar" d' =
       match dict_get "avatar" body with
       | Some v => Some v
       | None => dict_get "avatar" d
       end /\
     forall k, k <> "avatar" -> dict_get k d' = dict_get k d) /\
  (forall body', dict_get "avatar" body' = dict_get "avatar" body ->
     serve (PUT ens_name body') w = serve (PUT ens_name body) w) /\
  (forall row' k,
     db (snd (serve (PUT ens_name body) w)) !! ens_name = Some row' ->
     k <> "avatar" ->
     dict_get k (profile_data row') = dict_get k (prior_document ens_name w)) /\
  (forall row',
     db (snd (serve (PUT ens_name body) w)) !! ens_name = Some row' ->
     dict_get "farcaster_stats" (profile_data row') =
       dict_get "farcaster_stats" (prior_document ens_name w)) /\
  ((forall n, commit_ok env n = true) ->
   exists doc, fst (serve (PUT ens_name body) w) = Ok (updated_message doc)).
Proof.
  repeat split.
  - intros e d lu mp ml w0. rewrite copy_fields_loaded.
    eexists. split; [reflexivity|].
    destruct (dict_get "avatar" body) as [v|].
    + split; [apply dict_get_set_eq | intros k Hk; by apply dict_get_set_ne].
    + done.
  - intros body' _.
    destruct (db w !! ens_name) as [row|] eqn:Hdb.
    + by rewrite !(serve_PUT_hit ens_name _ w row Hdb).
    + by rewrite !(serve_PUT_miss ens_name _ w Hdb).
  - intros row' k Hrow' _. by rewrite (update_profile_stored_document _ _ _ _ Hrow').
  - intros row' Hrow'. by rewrite (update_profile_stored_document _ _ _ _ Hrow').
  - intros Hok.
    destruct (db w !! ens_name) as [row|] eqn:Hdb.
    + rewrite (serve_PUT_hit ens_name body w row Hdb), Hok. eauto.
    + rewrite (serve_PUT_miss ens_name body w Hdb), !Hok. eauto.
Qed.

(** The scenario of C4 in general: [GET], then [PUT] with any body, then
    [GET] while the record is younger than one hour, all commits accepted.
    The last answer is the first one, whatever the body. *)
Lemma get_put_get_answers_first_document ens_name body w :
  (forall n, commit_ok env n = true) ->
  let w1 := snd (serve (GET ens_name) w) in
  let w2 := snd (serve (PUT ens_name body) w1) in
  (forall row2, db w2 !! ens_name = Some row2 ->
     clock env (tick w2) - last_updated row2 < timedelta_hours 1) ->
  fst (serve (GET ens_name) w2) = fst (serve (GET ens_name) w).
Proof.
  intros Hok w1 w2 Hfresh.
  assert (Hw1 : exists row1, db w1 !! ens_name = Some row1 /\
                  fst (serve (GET ens_name) w) = Ok (profile_data row1)).
  { subst w1 w2.
    destruct (db w !! ens_name) as [row|] eqn:Hdb.
    - destruct (Z.lt_ge_cases (clock env (tick w) - timedelta_hours 1)
                  (last_updated row)) as [Hage|Hage].
      + rewrite (serve_GET_fresh ens_name w row Hdb Hage). simpl. eauto.
      + rewrite (serve_GET_stale ens_name w row Hdb Hage), Hok. simpl.
        rewrite lookup_insert_eq. eauto.
    - rewrite (serve_GET_miss ens_name w Hdb), Hok. simpl.
      rewrite lookup_insert_eq. eauto. }
  destruct Hw1 as (row1 & Hrow1 & ->).
  assert (Hw2 : exists row2, db w2 !! ens_name = Some row2 /\
                  profile_data row2 = profile_data row1).
  { subst w2. rewrite (serve_PUT_hit ens_name body w1 row1 Hrow1), Hok. simpl.
    rewrite lookup_insert_eq. eauto. }
  destruct Hw2 as (row2 & Hrow2 & <-).
  rewrite (serve_GET_fresh ens_name w2 row2 Hrow2); [done|].
  specialize (Hfresh row2 Hrow2). lia.
Qed.

(** C7.  With its commits accepted, [PUT] leaves the record stamped with the
    last reading of the clock the request took, whatever the body; a body
    without [avatar] leaves the document as it was and moves the timestamp
    all the same. *)
Theorem update_profile_bumps_last_updated ens_name body w :
  (forall n, (commits w <= n)%nat -> commit_ok env n = true) ->
  let w' := snd (serve (PUT ens_name body) w) in
  exists row',
    db w' !! ens_name = Some row' /\
    (tick w < tick w')%nat /\
    last_updated row' = clock env (pred (tick w')) /\
    (dict_get "avatar" body = None ->
     profile_data row' = prior_document ens_name w).
Proof.
  intros Hok w'. subst w'. unfold prior_document.
  destruct (db w !! ens_name) as [row|] eqn:Hdb.
  - rewrite (serve_PUT_hit ens_name body w row Hdb), Hok by lia. simpl.
    rewrite lookup_insert_eq. eexists. repeat split. lia.
  - rewrite (serve_PUT_miss ens_name body w Hdb), !Hok by lia. simpl.
    rewrite lookup_insert_eq. eexists. repeat split. lia.
Qed.

(** ** Refused commits *)

(** C8, as the code has it.  A commit refused under [GET] is swallowed by
    [update_cache]: the table is as before and the request answers the
    synthesized or cached document.  A commit refused under [PUT] raises to
    the caller; the refused commit changes nothing, while the default record
    an earlier commit of the same request inserted stays. *)
Theorem refused_commit_outcomes ens_name body w :
  commit_ok env (commits w) = false ->
  ((exists doc, fst (serve (GET ens_name) w) = Ok doc) /\
   db (snd (serve (GET ens_name) w)) = db w) /\
  (fst (serve (PUT ens_name body) w) = Raise SQLAlchemyError /\
   db (snd (serve (PUT ens_name body) w)) = db w).
Proof.
  intros Hrefused. split.
  - destruct (db w !! ens_name) as [row|] eqn:Hdb.
    + destruct (Z.lt_ge_cases (clock env (tick w) - timedelta_hours 1)
                  (last_updated row)) as [Hage|Hage].
      * rewrite (serve_GET_fresh ens_name w row Hdb Hage). simpl. eauto.
      * rewrite (serve_GET_stale ens_name w row Hdb Hage), Hrefused. simpl. eauto.
    + rewrite (serve_GET_miss ens_name w Hdb), Hrefused. simpl. eauto.
  - destruct (db w !! ens_name) as [row|] eqn:Hdb.
    + by rewrite (serve_PUT_hit ens_name body w row Hdb), Hrefused.
    + by rewrite (serve_PUT_miss ens_name body w Hdb), Hrefused.
Qed.

(** X14.  The second commit of a [PUT] on an unknown name refused: the request
    raises and the default record of the first commit is in the table. *)
Lemma update_profile_second_commit_refused ens_name body w :
  db w !! ens_name = None ->
  commit_ok env (commits w) = true ->
  commit_ok env (S (commits w)) = false ->
  fst (serve (PUT ens_name body) w) = Raise SQLAlchemyError /\
  db (snd (serve (PUT ens_name body) w)) =
    <[ens_name := {| profile_data := new_profile_data ens_name;
                     last_updated := clock env (tick w) |}]> (db w).
Proof.
  intros Hdb Hfirst Hsecond.
  by rewrite (serve_PUT_miss ens_name body w Hdb), Hfirst, Hsecond.
Qed.

(** ** Timestamps along a run *)

Lemma serve_all_app rs1 rs2 w :
  serve_all (rs1 ++ rs2) w = serve_all rs2 (serve_all rs1 w).
Proof. apply fold_left_app. Qed.

Lemma serve_all_last_updated_mono rs w :
  monotone_clock -> stamps_in_past w ->
  stamps_in_past (serve_all rs w) /\
  forall k row, db w !! k = Some row ->
    exists row', db (serve_all rs w) !! k = Some row' /\
                 last_updated row <= last_updated row'.
Proof.
  intros Hmono. revert w.
  induction rs as [|r rs IH]; intros w Hpast.
  - split; [done|]. intros k row Hk. exists row. split; [done | lia].
  - destruct (serve_last_updated_mono r w Hmono Hpast) as [Hpast1 Hstep].
    destruct (IH _ Hpast1) as [Hpast2 Hrest].
    split; [exact Hpast2|].
    intros k row Hk.
    destruct (Hstep k row Hk) as (row1 & Hk1 & Hle1).
    destruct (Hrest k row1 Hk1) as (row2 & Hk2 & Hle2).
    exists row2. split; [exact Hk2 | lia].
Qed.

(** C9.  Along any sequence of [GET] and [PUT] requests, served with a clock
    that does not run backwards from a table whose timestamps are not in the
    future (the empty table is one), a record that is in the table at some
    point is there at every later point, with a [last_updated] that is not
    earlier. *)
Theorem last_updated_never_decreases (rs1 rs2 : list request) w k row :
  monotone_clock ->
  stamps_in_past w ->
  db (serve_all rs1 w) !! k = Some row ->
  exists row',
    db (serve_all (rs1 ++ rs2) w) !! k = Some row' /\
    last_updated row <= last_updated row'.
Proof.
  intros Hmono Hpast Hk. rewrite serve_all_app.
  destruct (serve_all_last_updated_mono rs1 w Hmono Hpast) as [Hpast1 _].
  destruct (serve_all_last_updated_mono rs2 _ Hmono Hpast1) as [_ Hrest].
  by apply Hrest.
Qed.

(** ** Letter case *)











(** ** The cache functions on their own *)

(** [update_cache] in a session of its own. *)
Lemma update_cache_alone ens_name pd w :
  with_db (update_cache ens_name pd) w =
    (Ok tt,
     World_after
       (if commit_ok env (commits w)
        then <[ens_name := {| profile_data := pd;
                              last_updated := clock env (tick w) |}]> (db w)
        else db w)
       (S (tick w)) (S (commits w))).
Proof.
  destruct w as [m t c]. cbn [db tick commits].
  unfold with_db. run.
  destruct (m !! ens_name) as [row|] eqn:Hdb; run; rewrite ?Hdb; run;
    destruct (commit_ok env c); reflexivity.
Qed.

Lemma cached_document_alone ens_name w :
  with_db (cached_document ens_name) w =
    (match db w !! ens_name with
     | Some row => Ok (profile_data row)
     | None => Raise AttributeError
     end, w).
Proof.
  destruct w as [m t c]. unfold with_db, cached_document. run.
  destruct (m !! ens_name) as [row|]; reflexivity.
Qed.

(** X1.  [update_cache] never raises.  When its commit is accepted, a lookup of the
    name in a later session yields the document it was given, whatever that
    document is, and every other name is as before; when the commit is
    refused the table is as before. *)
Theorem update_cache_then_lookup ens_name pd w :
  fst (with_db (update_cache ens_name pd) w) = Ok tt /\
  (commit_ok env (commits w) = true ->
   fst (with_db (cached_document ens_name)
          (snd (with_db (update_cache ens_name pd) w))) = Ok pd /\
   forall k, k <> ens_name ->
     db (snd (with_db (update_cache ens_name pd) w)) !! k = db w !! k) /\
  (commit_ok env (commits w) = false ->
   db (snd (with_db (update_cache ens_name pd) w)) = db w).
Proof.
  rewrite update_cache_alone. cbn [fst snd]. split; [done|]. split.
  - intros ->. rewrite cached_document_alone. cbn [fst db World_after].
    rewrite lookup_insert_eq. split; [done|].
    intros k Hk. by rewrite lookup_insert_ne.
  - by intros ->.
Qed.

(** A name that is not in the table is looked up as [None]: reading an
    attribute of the result raises, and the table is not touched. *)
Lemma cached_document_of_unknown_name ens_name w :
  db w !! ens_name = None ->
  with_db (cached_document ens_name) w = (Raise AttributeError, w).
Proof. intros Hdb. by rewrite cached_document_alone, Hdb. Qed.

(** ** What requests do to the table *)

(** X2.  [GET] never raises, whatever the table holds and whether or not the
    database accepts the write: it answers the stored document of the name or
    the document of the profile source. *)
Theorem get_profile_never_raises ens_name w :
  exists doc,
    fst (serve (GET ens_name) w) = Ok doc /\
    (doc = fetch_profile_data ens_name \/
     exists row, db w !! ens_name = Some row /\ doc = profile_data row).
Proof.
  destruct (db w !! ens_name) as [row|] eqn:Hdb.
  - destruct (Z.lt_ge_cases (clock env (tick w) - timedelta_hours 1)
                (last_updated row)) as [Hage|Hage].
    + rewrite (serve_GET_fresh ens_name w row Hdb Hage).
      eexists. split; [reflexivity|]. right. eauto.
    + rewrite (serve_GET_stale ens_name w row Hdb Hage).
      eexists. split; [reflexivity|]. by left.
  - rewrite (serve_GET_miss ens_name w Hdb).
    eexists. split; [reflexivity|]. by left.
Qed.

Lemma serve_lookup_other r w k :
  k <> request_name r ->
  db (snd (serve r w)) !! k = db w !! k.
Proof.
  intros Hk. serve_cases r w; cbn [request_name] in Hk; commit_cases;
    rewrite ?lookup_insert_ne by done; reflexivity.
Qed.

(** X3.  Requests read and write the record of their own name only: a run leaves
    the record of every name it does not request exactly as it was. *)
Theorem serve_all_touches_only_requested_names rs w k :
  k ∉ request_name <$> rs ->
  db (serve_all rs w) !! k = db w !! k.
Proof.
  revert w. induction rs as [|r rs IH]; intros w Hk; [reflexivity|].
  rewrite fmap_cons in Hk. apply not_elem_of_cons in Hk as [Hne Hk].
  change (serve_all (r :: rs) w) with (serve_all rs (snd (serve r w))).
  rewrite (IH _ Hk). by apply serve_lookup_other.
Qed.

Lemma serve_dom r w :
  dom (db w) ⊆ dom (db (snd (serve r w))) /\
  dom (db (snd (serve r w))) ⊆ dom (db w) ∪ {[request_name r]}.
Proof.
  split; intros k Hk.
  - apply elem_of_dom in Hk as [row Hrow].
    destruct (serve_keeps_records r w k row Hrow) as [row' Hrow'].
    apply elem_of_dom. eauto.
  - destruct (decide (k = request_name r)) as [->|Hne]; [set_solver|].
    rewrite elem_of_dom, (serve_lookup_other r w k Hne) in Hk.
    apply elem_of_union_l, elem_of_dom, Hk.
Qed.

(** X4.  Along a run no record is ever deleted, and the only names that enter the
    table are names that were requested. *)
Theorem serve_all_names rs w :
  dom (db w) ⊆ dom (db (serve_all rs w)) /\
  dom (db (serve_all rs w)) ⊆ dom (db w) ∪ list_to_set (request_name <$> rs).
Proof.
  revert w. induction rs as [|r rs IH]; intros w.
  - simpl. set_solver.
  - destruct (serve_dom r w) as [Hkeep Hnew].
    destruct (IH (snd (serve r w))) as [Hkeep' Hnew'].
    change (serve_all (r :: rs) w) with (serve_all rs (snd (serve r w))).
    rewrite fmap_cons, list_to_set_cons. split.
    + etrans; [exact Hkeep | exact Hkeep'].
    + intros k Hk. apply Hnew', elem_of_union in Hk as [Hk|Hk].
      * apply Hnew, elem_of_union in Hk as [Hk|Hk].
        -- by apply elem_of_union_l.
        -- by apply elem_of_union_r, elem_of_union_l.
      * by apply elem_of_union_r, elem_of_union_r.
Qed.

Lemma serve_documents r w k row' :
  db (snd (serve r w)) !! k = Some row' ->
  (exists row, db w !! k = Some row /\ profile_data row' = profile_data row) \/
  profile_data row' = fetch_profile_data k \/
  profile_data row' = new_profile_data k.
Proof.
  serve_cases r w; commit_cases; insert_cases; intros Hk;
    try (left; exists row'; by split);
    injection Hk as <-; cbn [profile_data]; eauto.
Qed.

(** X5.  From a table whose documents are the code's own (the empty table is
    one), every run leaves a table whose documents are the code's own: under
    each name the document of the profile source or the default document of
    [PUT] for that name.  No value sent in a body is ever stored. *)
Theorem stored_documents_are_from_code rs w :
  documents_from_code w ->
  documents_from_code (serve_all rs w).
Proof.
  revert w. induction rs as [|r rs IH]; intros w Hw; [exact Hw|].
  apply IH. intros k row' Hk.
  destruct (serve_documents r w k row' Hk) as [(row & Hrow & ->) | Hnew].
  - exact (Hw k row Hrow).
  - exact Hnew.
Qed.

(** X6.  The [ens_name] inside a stored document is the key it is stored under:
    every run keeps that. *)
Theorem stored_documents_name_their_key rs w :
  documents_name_their_key w ->
  documents_name_their_key (serve_all rs w).
Proof.
  revert w. induction rs as [|r rs IH]; intros w Hw; [exact Hw|].
  apply IH. intros k row' Hk.
  destruct (serve_documents r w k row' Hk) as [(row & Hrow & ->) | [-> | ->]].
  - exact (Hw k row Hrow).
  - reflexivity.
  - reflexivity.
Qed.

(** X7.  No stored timestamp is ever ahead of the clock: with a clock that does
    not run backwards, every run keeps that. *)
Theorem stamps_stay_in_past rs w :
  monotone_clock ->
  stamps_in_past w ->
  stamps_in_past (serve_all rs w).
Proof.
  intros Hmono Hpast. by apply serve_all_last_updated_mono.
Qed.

(** ** More on partial updates *)

(** X8.  [PUT] on a name that is not in the table, both commits accepted: the
    default document of the name is stored, stamped with the second reading
    of the clock, and it is what the request answers, whatever the body. *)
Theorem update_profile_creates_default ens_name body w :
  db w !! ens_name = None ->
  commit_ok env (commits w) = true ->
  commit_ok env (S (commits w)) = true ->
  fst (serve (PUT ens_name body) w) =
    Ok (updated_message (new_profile_data ens_name)) /\
  db (snd (serve (PUT ens_name body) w)) =
    <[ens_name := {| profile_data := new_profile_data ens_name;
                     last_updated := clock env (S (tick w)) |}]> (db w).
Proof.
  intros Hdb Hfirst Hsecond.
  rewrite (serve_PUT_miss ens_name body w Hdb), Hfirst. cbn zeta.
  rewrite Hsecond. cbn [fst snd db World_after].
  by rewrite insert_insert_eq.
Qed.

(** X9.  The answer of an accepted [PUT] shows the document as it is stored after
    the request. *)
Theorem update_profile_answers_stored_document ens_name body w doc :
  fst (serve (PUT ens_name body) w) = Ok doc ->
  exists row',
    db (snd (serve (PUT ens_name body) w)) !! ens_name = Some row' /\
    doc = updated_message (profile_data row').
Proof.
  destruct (db w !! ens_name) as [row|] eqn:Hdb.
  - rewrite (serve_PUT_hit ens_name body w row Hdb).
    destruct (commit_ok env (commits w)); cbn [fst snd db World_after];
      [|intros [=]].
    intros [= <-]. rewrite lookup_insert_eq. eauto.
  - rewrite (serve_PUT_miss ens_name body w Hdb). cbn zeta.
    destruct (commit_ok env (commits w)); [|intros [=]].
    destruct (commit_ok env (S (commits w))); cbn [fst snd db World_after];
      [|intros [=]].
    intros [= <-]. rewrite lookup_insert_eq. eauto.
Qed.

(** X10.  The same [PUT] twice, commits accepted: the second answers what the
    first answered and stores the document the first stored. *)
Theorem update_profile_twice ens_name body w :
  (forall n, commit_ok env n = true) ->
  let w1 := snd (serve (PUT ens_name body) w) in
  let w2 := snd (serve (PUT ens_name body) w1) in
  fst (serve (PUT ens_name body) w1) = fst (serve (PUT ens_name body) w) /\
  exists row1 row2,
    db w1 !! ens_name = Some row1 /\
    db w2 !! ens_name = Some row2 /\
    profile_data row2 = profile_data row1.
Proof.
  intros Hok w1 w2.
  assert (H1 : exists row1, db w1 !! ens_name = Some row1 /\
                 fst (serve (PUT ens_name body) w) =
                   Ok (updated_message (profile_data row1))).
  { subst w1 w2. destruct (db w !! ens_name) as [row|] eqn:Hdb.
    - rewrite (serve_PUT_hit ens_name body w row Hdb), Hok.
      cbn [fst snd db World_after]. rewrite lookup_insert_eq. eauto.
    - rewrite (serve_PUT_miss ens_name body w Hdb), !Hok.
      cbn [fst snd db World_after]. rewrite lookup_insert_eq. eauto. }
  destruct H1 as (row1 & Hrow1 & ->).
  subst w2. rewrite (serve_PUT_hit ens_name body w1 row1 Hrow1), Hok.
  cbn [fst snd db World_after]. split; [done|].
  eexists row1, _. split; [done|]. split; [apply lookup_insert_eq | done].
Qed.

(** X11.  [PUT] on an unknown name and then [GET] while the new record is younger
    than one hour: the [GET] answers the default document of [PUT], which is
    never the document of the profile source, and writes nothing. *)
Theorem put_then_get_answers_default ens_name body w :
  db w !! ens_name = None ->
  commit_ok env (commits w) = true ->
  commit_ok env (S (commits w)) = true ->
  let w1 := snd (serve (PUT ens_name body) w) in
  clock env (tick w1) - clock env (S (tick w)) < timedelta_hours 1 ->
  fst (serve (GET ens_name) w1) = Ok (new_profile_data ens_name) /\
  new_profile_data ens_name <> fetch_profile_data ens_name /\
  db (snd (serve (GET ens_name) w1)) = db w1 /\
  commits (snd (serve (GET ens_name) w1)) = commits w1.
Proof.
  intros Hdb Hfirst Hsecond w1. subst w1.
  rewrite (serve_PUT_miss ens_name body w Hdb), Hfirst. cbn zeta.
  rewrite Hsecond. cbn [snd tick World_after]. intros Hage.
  rewrite (serve_GET_fresh ens_name _
             {| profile_data := new_profile_data ens_name;
                last_updated := clock env (S (tick w)) |});
    [ | apply lookup_insert_eq | cbn [tick last_updated World_after]; lia].
  cbn [fst snd db commits World_after]. repeat split. discriminate.
Qed.

(** X12.  [PUT] renews a record without refreshing it: after an accepted [PUT] on a
    stored name, a [GET] within one hour of the [PUT] answers the stored
    document, however old the record was before the [PUT]. *)
Theorem put_renews_without_refetch ens_name body w row :
  db w !! ens_name = Some row ->
  commit_ok env (commits w) = true ->
  clock env (S (tick w)) - clock env (tick w) < timedelta_hours 1 ->
  let w1 := snd (serve (PUT ens_name body) w) in
  fst (serve (GET ens_name) w1) = Ok (profile_data row) /\
  db (snd (serve (GET ens_name) w1)) = db w1 /\
  commits (snd (serve (GET ens_name) w1)) = commits w1.
Proof.
  intros Hdb Hok Hage w1. subst w1.
  rewrite (serve_PUT_hit ens_name body w row Hdb), Hok. cbn [snd].
  rewrite (serve_GET_fresh ens_name _
             {| profile_data := profile_data row;
                last_updated := clock env (tick w) |});
    [done | apply lookup_insert_eq | cbn [tick last_updated World_after]; lia].
Qed.

(** X13.  A refused write leaves nothing behind: a [GET] of an unknown name
    whose commit is refused has taken one reading of the clock, for the
    column default of the INSERT that was refused, and leaves the table as it
    was; the next [GET] synthesizes the document again and, its commit
    accepted, stores it stamped with the reading after that one. *)
Theorem get_retries_after_refused_write ens_name w :
  db w !! ens_name = None ->
  commit_ok env (commits w) = false ->
  commit_ok env (S (commits w)) = true ->
  let w1 := snd (serve (GET ens_name) w) in
  db w1 = db w /\
  tick w1 = S (tick w) /\
  fst (serve (GET ens_name) w1) = Ok (fetch_profile_data ens_name) /\
  db (snd (serve (GET ens_name) w1)) !! ens_name =
    Some {| profile_data := fetch_profile_data ens_name;
            last_updated := clock env (S (tick w)) |}.
Proof.
  intros Hdb Hrefused Hok w1. subst w1.
  rewrite (serve_GET_miss ens_name w Hdb), Hrefused.
  cbn [snd db tick World_after].
  split; [done|]. split; [done|].
  rewrite (serve_GET_miss ens_name
             (World_after (db w) (S (tick w)) (S (commits w))) Hdb).
  cbn [commits World_after]. rewrite Hok. cbn [fst snd db tick World_after].
  split; [done | apply lookup_insert_eq].
Qed.

End Backend.

(** ** The handlers on examples *)

(** At 3599.999999 s the record of [alice_world] is served from the cache;
    at 3600 s it is synthesized again. *)
Lemma get_profile_fresh_is_strict_example :
  fst (serve (env_at 3599999999 true) (GET "alice.eth") alice_world)
    = Ok alice_doc /\
  fst (serve (env_at 3600000000 true) (GET "alice.eth") alice_world)
    = Ok (fetch_profile_data (env_at 3600000000 true) "alice.eth").
Proof.
  split.
  - apply (get_profile_fresh_is_strict (env_at 3599999999 true) "alice.eth"
             alice_world {| profile_data := alice_doc; last_updated := 0 |});
      reflexivity.
  - apply (get_profile_fresh_is_strict (env_at 3600000000 true) "alice.eth"
             alice_world {| profile_data := alice_doc; last_updated := 0 |});
      reflexivity.
Defined.

Lemma get_profile_refetches_example :
  db empty_world !! "bob.eth" = None /\
  fst (serve (env_at 0 true) (GET "bob.eth") empty_world)
    = Ok (fetch_profile_data (env_at 0 true) "bob.eth").
Proof.
  split; [reflexivity|].
  apply (get_profile_refetches (env_at 0 true) "bob.eth" empty_world).
  left. reflexivity.
Defined.

Lemma env_at_monotone t accept : monotone_clock (env_at t accept).
Proof. intros m n Hmn. simpl. lia. Defined.

Lemma empty_world_stamps env : stamps_in_past env empty_world.
Proof.
  intros k row Hk. unfold empty_world in Hk. cbn [db] in Hk.
  rewrite lookup_empty in Hk. discriminate Hk.
Defined.

(** Two [GET]s one microsecond apart. *)
Lemma get_profile_twice_within_ttl_example :
  let env := env_at 0 true in
  let w1 := snd (serve env (GET "alice.eth") empty_world) in
  fst (serve env (GET "alice.eth") w1) = fst (serve env (GET "alice.eth") empty_world) /\
  db (snd (serve env (GET "alice.eth") w1)) = db w1 /\
  commits (snd (serve env (GET "alice.eth") w1)) = commits w1.
Proof.
  apply (get_profile_twice_within_ttl (env_at 0 true) "alice.eth" empty_world
           {| profile_data := fetch_profile_data (env_at 0 true) "alice.eth";
              last_updated := 0 |}).
  - apply env_at_monotone.
  - vm_compute. reflexivity.
  - vm_compute. reflexivity.
Defined.

Lemma get_profile_first_call_example :
  size (db (snd (serve (env_at 0 true) (GET "alice.eth") empty_world))) = 1%nat /\
  exists doc, fst (serve (env_at 0 true) (GET "alice.eth") empty_world) = Ok doc /\
              dict_get "ens_name" doc = Some (JStr "alice.eth").
Proof.
  apply (get_profile_first_call_creates_one_record (env_at 0 true) "alice.eth"
           empty_world); reflexivity.
Defined.

(** A [PUT] whose body has no allowed key, one second after the record was
    written. *)
Lemma update_profile_bumps_last_updated_example :
  exists row',
    db (snd (serve (env_at 1000000 true)
                   (PUT "alice.eth" [("bio", JStr "hello")]) alice_world))
      !! "alice.eth" = Some row' /\
    last_updated row' = 1000000 /\
    profile_data row' = alice_doc.
Proof.
  destruct (update_profile_bumps_last_updated (env_at 1000000 true) "alice.eth"
              [("bio", JStr "hello")] alice_world)
    as (row' & Hrow' & _ & Hstamp & Hdoc).
  - intros n _. reflexivity.
  - exists row'. split; [exact Hrow'|]. split; [exact Hstamp|].
    apply Hdoc. reflexivity.
Defined.

(** A [PUT] whose commit is refused raises: the failure of this write
    reaches the caller. *)
Lemma update_profile_propagates_refused_commit :
  commit_ok (env_at 0 false) (commits alice_world) = false /\
  fst (serve (env_at 0 false)
             (PUT "alice.eth" [("avatar", JStr "http://x/y.png")]) alice_world)
    = Raise SQLAlchemyError /\
  ~ exists doc,
      fst (serve (env_at 0 false)
                 (PUT "alice.eth" [("avatar", JStr "http://x/y.png")]) alice_world)
        = Ok doc.
Proof.
  split; [reflexivity|]. split; [reflexivity|].
  intros [doc Hdoc]. vm_compute in Hdoc. discriminate Hdoc.
Qed.

Lemma refused_commit_outcomes_example :
  (exists doc, fst (serve (env_at 3600000000 false) (GET "alice.eth") alice_world)
                 = Ok doc) /\
  db (snd (serve (env_at 3600000000 false) (GET "alice.eth") alice_world))
    = db alice_world /\
  fst (serve (env_at 3600000000 false) (PUT "alice.eth" []) alice_world)
    = Raise SQLAlchemyError.
Proof.
  destruct (refused_commit_outcomes (env_at 3600000000 false) "alice.eth" []
              alice_world eq_refl) as [[Hget Hdb] [Hput _]].
  split; [exact Hget|]. split; [exact Hdb | exact Hput].
Defined.

(** [GET] then [PUT]: the record written by the first is not older after the
    second. *)
Lemma last_updated_never_decreases_example :
  exists row',
    db (serve_all (env_at 0 true)
          ([GET "alice.eth"] ++ [PUT "alice.eth" []]) empty_world)
      !! "alice.eth" = Some row' /\
    0 <= last_updated row'.
Proof.
  apply (last_updated_never_decreases (env_at 0 true)
           [GET "alice.eth"] [PUT "alice.eth" []] empty_world "alice.eth"
           {| profile_data := fetch_profile_data (env_at 0 true) "alice.eth";
              last_updated := 0 |}).
  - apply env_at_monotone.
  - apply empty_world_stamps.
  - vm_compute. reflexivity.
Defined.



(** C4 on the code.  [GET], then [PUT] with the avatar ["http://x/y.png"],
    then [GET], one microsecond apart on an empty table with every commit
    accepted, whatever [str.lower] and the digest are: the last answer has the
    [farcaster_stats] of the first, and its [avatar] is the one of the first
    answer, not the one that was put. *)
Theorem get_put_get_alice (lower md5 : string -> string) :
  let env := {| clock := fun n => Z.of_nat n; commit_ok := fun _ => true;
                str_lower := lower; md5_hexdigest := md5 |} in
  let first := serve env (GET "alice.eth") empty_world in
  let put := serve env (PUT "alice.eth" [("avatar", JStr "http://x/y.png")])
               (snd first) in
  let last := serve env (GET "alice.eth") (snd put) in
  exists doc1 doc3,
    fst first = Ok doc1 /\
    fst put = Ok (updated_message doc1) /\
    fst last = Ok doc3 /\
    dict_get "farcaster_stats" doc3 = dict_get "farcaster_stats" doc1 /\
    dict_get "avatar" doc3 = dict_get "avatar" doc1 /\
    dict_get "avatar" doc3 <> Some (JStr "http://x/y.png").
Proof.
  intros env first put last.
  exists (fetch_profile_data env "alice.eth"), (fetch_profile_data env "alice.eth").
  assert (Hfirst : first =
            (Ok (fetch_profile_data env "alice.eth"),
             World_after
               {["alice.eth" := {| profile_data := fetch_profile_data env "alice.eth";
                                   last_updated := 0 |}]} 1 1))
    by (subst first; rewrite serve_GET_miss by reflexivity; reflexivity).
  assert (Hput : put =
            (Ok (updated_message (fetch_profile_data env "alice.eth")),
             World_after
               {["alice.eth" := {| profile_data := fetch_profile_data env "alice.eth";
                                   last_updated := 1 |}]} 2 2)).
  { subst put. rewrite Hfirst. cbn [snd].
    erewrite serve_PUT_hit by (apply lookup_singleton_eq).
    cbn. by rewrite insert_singleton_eq. }
  assert (Hlast : last =
            (Ok (fetch_profile_data env "alice.eth"),
             World_after
               {["alice.eth" := {| profile_data := fetch_profile_data env "alice.eth";
                                   last_updated := 1 |}]} 3 2)).
  { subst last. rewrite Hput. cbn [snd].
    rewrite (serve_GET_fresh env "alice.eth" _
               {| profile_data := fetch_profile_data env "alice.eth";
                  last_updated := 1 |});
      [reflexivity | apply lookup_singleton_eq | reflexivity]. }
  rewrite Hfirst, Hput, Hlast. cbn [fst].
  repeat split. discriminate.
Qed.

(** ** More examples *)

Lemma empty_world_documents env : documents_from_code env empty_world.
Proof.
  intros k row Hk. unfold empty_world in Hk. cbn [db] in Hk.
  rewrite lookup_empty in Hk. discriminate Hk.
Defined.

Lemma update_profile_creates_default_example :
  fst (serve (env_at 0 true) (PUT "bob.eth" [("avatar", JStr "http://x/y.png")])
         empty_world)
    = Ok (updated_message (new_profile_data "bob.eth")) /\
  db (snd (serve (env_at 0 true)
             (PUT "bob.eth" [("avatar", JStr "http://x/y.png")]) empty_world))
    = <[ "bob.eth" := {| profile_data := new_profile_data "bob.eth";
                         last_updated := 1 |} ]> ∅.
Proof.
  apply (update_profile_creates_default (env_at 0 true) "bob.eth"
           [("avatar", JStr "http://x/y.png")] empty_world); reflexivity.
Defined.

Lemma update_profile_answers_stored_document_example :
  exists row',
    db (snd (serve (env_at 5 true) (PUT "alice.eth" [("avatar", JStr "X")])
               alice_world)) !! "alice.eth" = Some row' /\
    updated_message alice_doc = updated_message (profile_data row').
Proof.
  apply (update_profile_answers_stored_document (env_at 5 true) "alice.eth"
           [("avatar", JStr "X")] alice_world (updated_message alice_doc)).
  reflexivity.
Defined.

Lemma update_profile_twice_example :
  let env := env_at 5 true in
  let body := [("avatar", JStr "X")] in
  let w1 := snd (serve env (PUT "alice.eth" body) alice_world) in
  fst (serve env (PUT "alice.eth" body) w1)
    = fst (serve env (PUT "alice.eth" body) alice_world).
Proof.
  intros env body w1.
  apply (update_profile_twice (env_at 5 true) "alice.eth" [("avatar", JStr "X")]
           alice_world).
  intros n. reflexivity.
Defined.

Lemma serve_all_touches_only_requested_names_example :
  db (serve_all (env_at 7200000000 true)
        [GET "bob.eth"; PUT "carol.eth" []] alice_world) !! "alice.eth"
    = db alice_world !! "alice.eth".
Proof.
  apply (serve_all_touches_only_requested_names (env_at 7200000000 true)
           [GET "bob.eth"; PUT "carol.eth" []] alice_world "alice.eth").
  vm_compute. intros Hin.
  repeat (apply elem_of_cons in Hin as [Heq | Hin]; [discriminate Heq|]).
  by apply elem_of_nil in Hin.
Defined.

Lemma stamps_stay_in_past_example :
  stamps_in_past (env_at 0 true)
    (serve_all (env_at 0 true) [GET "alice.eth"; PUT "bob.eth" []] empty_world).
Proof.
  apply (stamps_stay_in_past (env_at 0 true)).
  - apply env_at_monotone.
  - apply empty_world_stamps.
Defined.

Lemma put_then_get_answers_default_example :
  let env := env_at 0 true in
  let w1 := snd (serve env (PUT "bob.eth" []) empty_world) in
  fst (serve env (GET "bob.eth") w1) = Ok (new_profile_data "bob.eth").
Proof.
  intros env w1.
  apply (put_then_get_answers_default (env_at 0 true) "bob.eth" [] empty_world);
    reflexivity.
Defined.

(** The record of [alice_world] is two hours old when the [PUT] arrives. *)
Lemma put_renews_without_refetch_example :
  let env := env_at 7200000000 true in
  let w1 := snd (serve env (PUT "alice.eth" []) alice_world) in
  fst (serve env (GET "alice.eth") alice_world)
    = Ok (fetch_profile_data env "alice.eth") /\
  fst (serve env (GET "alice.eth") w1) = Ok alice_doc.
Proof.
  intros env w1. split; [reflexivity|].
  apply (put_renews_without_refetch (env_at 7200000000 true) "alice.eth" []
           alice_world {| profile_data := alice_doc; last_updated := 0 |});
    reflexivity.
Defined.

Lemma stored_documents_are_from_code_example :
  documents_from_code (env_at 0 true)
    (serve_all (env_at 0 true)
       [GET "alice.eth"; PUT "bob.eth" [("avatar", JStr "http://x/y.png")];
        PUT "alice.eth" [("avatar", JStr "http://x/y.png")]]
       empty_world).
Proof.
  apply (stored_documents_are_from_code (env_at 0 true)).
  apply empty_world_documents.
Defined.

Lemma alice_world_names_its_key : documents_name_their_key alice_world.
Proof.
  intros k row Hk. unfold alice_world in Hk. cbn [db] in Hk.
  apply lookup_singleton_Some in Hk as [<- <-]. reflexivity.
Defined.

Lemma stored_documents_name_their_key_example :
  documents_name_their_key
    (serve_all (env_at 7200000000 true)
       [PUT "alice.eth" [("ens_name", JStr "mallory.eth")]; GET "bob.eth"]
       alice_world).
Proof.
  apply (stored_documents_name_their_key (env_at 7200000000 true)).
  apply alice_world_names_its_key.
Defined.

(** The first commit accepted, the second refused. *)
Lemma update_profile_second_commit_refused_example :
  let env := env_with 0 (fun n => Nat.eqb n 0) in
  fst (serve env (PUT "bob.eth" []) empty_world) = Raise SQLAlchemyError /\
  db (snd (serve env (PUT "bob.eth" []) empty_world))
    = <[ "bob.eth" := {| profile_data := new_profile_data "bob.eth";
                         last_updated := 0 |} ]> ∅.
Proof.
  apply (update_profile_second_commit_refused
           (env_with 0 (fun n => Nat.eqb n 0)) "bob.eth" [] empty_world);
    reflexivity.
Defined.

(** The first commit refused, the second accepted: the record is stamped with
    the second reading of the clock. *)
Lemma get_retries_after_refused_write_example :
  let env := env_with 0 (fun n => negb (Nat.eqb n 0)) in
  let w1 := snd (serve env (GET "bob.eth") empty_world) in
  db w1 = ∅ /\
  tick w1 = 1%nat /\
  fst (serve env (GET "bob.eth") w1) = Ok (fetch_profile_data env "bob.eth") /\
  db (snd (serve env (GET "bob.eth") w1)) !! "bob.eth" =
    Some {| profile_data := fetch_profile_data env "bob.eth";
            last_updated := 1 |}.
Proof.
  apply (get_retries_after_refused_write
           (env_with 0 (fun n => negb (Nat.eqb n 0))) "bob.eth" empty_world);
    reflexivity.
Defined.
